(** * SF::Vector2 and SF::Vector3 over IEEE-754 binary floating point

    A shallow embedding of [SF/include/Vector2.h] and [SF/include/Vector3.h].
    The C++ type [float] is IEEE-754 binary32 and [double] is binary64; both
    are modelled with the Standard Library's executable specification of
    floating-point arithmetic ([SpecFloat]), instantiated at precision 24 /
    maximal exponent 128 and precision 53 / maximal exponent 1024.  Every
    operation rounds to nearest, ties to even, and every expression is
    evaluated in the type C++ gives it (no excess precision, no fused
    multiply-add). *)

From Stdlib Require Import ZArith Bool Lia List.
From Stdlib Require Import Floats.SpecFloat.

Local Open Scope Z_scope.

(** ** Floating-point formats *)

(** Conversion of a value to the format [prec]/[emax]: the value is rounded
    to the nearest representable number and stored in canonical form.
    Zeros, infinities and NaN are kept. *)
Definition convert (prec emax : Z) (x : spec_float) : spec_float :=
  match x with
  | S754_finite s m e => binary_normalize prec emax (cond_Zopp s (Zpos m)) e s
  | _ => x
  end.

Definition is_finite (x : spec_float) : bool :=
  match x with
  | S754_zero _ | S754_finite _ _ _ => true
  | S754_infinity _ | S754_nan => false
  end.

Definition is_nan (x : spec_float) : bool :=
  match x with
  | S754_nan => true
  | _ => false
  end.

(** C++ [float]. *)
Module Flt.
Definition prec : Z := 24.
Definition emax : Z := 128.

Definition wf (x : spec_float) : bool := valid_binary prec emax x.

Definition add := SFadd prec emax.
Definition sub := SFsub prec emax.
Definition mul := SFmul prec emax.
Definition div := SFdiv prec emax.
Definition sqrt := SFsqrt prec emax.
Definition opp := SFopp.
Definition fabs := SFabs.
Definition ltb := SFltb.
Definition leb := SFleb.
Definition eqb := SFeqb.

(** An integer literal with suffix [.0f]. *)
Definition of_Z (z : Z) : spec_float := binary_normalize prec emax z 0 false.

Definition pos_zero : spec_float := S754_zero false.
Definition neg_zero : spec_float := S754_zero true.
Definition infinity : spec_float := S754_infinity false.
Definition nan : spec_float := S754_nan.
End Flt.

(** C++ [double]. *)
Module Dbl.
Definition prec : Z := 53.
Definition emax : Z := 1024.

Definition wf (x : spec_float) : bool := valid_binary prec emax x.

Definition add := SFadd prec emax.
Definition sub := SFsub prec emax.
Definition mul := SFmul prec emax.
Definition div := SFdiv prec emax.
Definition sqrt := SFsqrt prec emax.
Definition opp := SFopp.
Definition ltb := SFltb.
Definition leb := SFleb.

Definition of_Z (z : Z) : spec_float := binary_normalize prec emax z 0 false.

(** Promotion [float -> double] (exact) and narrowing [double -> float]
    (rounding). *)
Definition of_float (x : spec_float) : spec_float := convert prec emax x.
Definition to_float (x : spec_float) : spec_float := convert Flt.prec Flt.emax x.
End Dbl.

Abbreviation float := spec_float (only parsing).
Abbreviation double := spec_float (only parsing).

(** Modelled from the spec: [FLT_EPSILON] comes from [<cfloat>], which is not
    part of the sources; the spec calls it the machine epsilon of the
    floating type, which for binary32 is 2^-23. *)
Definition FLT_EPSILON : float := S754_finite false 8388608 (-46).

(** [#define M_PI 3.1415926535897932384626433832795]: the literal denotes the
    binary64 number nearest to it, 7074237752028440 * 2^-51. *)
Definition M_PI : double := S754_finite false 7074237752028440 (-51).

(** [pow(x, 2)] with [x] a [float]: the integer exponent selects the
    [double] overload, so [x] is promoted first.  The square of a binary32
    number is a binary64 number, and the library function returns it. *)
Definition pow_2 (x : float) : double :=
  let d := Dbl.of_float x in Dbl.mul d d.

(** ** Vector2.h *)

Module Vector2.

Record t : Set := mk { x_ : float; y_ : float }.

(** [Vector2()] *)
Definition zero : t := mk Flt.pos_zero Flt.pos_zero.

Definition x (v : t) : float := x_ v.
Definition y (v : t) : float := y_ v.

(** [Vector2 operator-() const] *)
Definition op_neg (v : t) : t := mk (Flt.opp (x_ v)) (Flt.opp (y_ v)).

(** [float operator*(const Vector2&) const] *)
Definition op_dot (v vector : t) : float :=
  Flt.add (Flt.mul (x_ v) (x vector)) (Flt.mul (y_ v) (y vector)).

(** [Vector2 operator*(float s) const] *)
Definition op_mul (v : t) (s : float) : t :=
  mk (Flt.mul (x_ v) s) (Flt.mul (y_ v) s).

(** [Vector2 operator/(float s) const] *)
Definition op_div (v : t) (s : float) : t :=
  let invS := Flt.div (Flt.of_Z 1) s in
  mk (Flt.mul (x_ v) invS) (Flt.mul (y_ v) invS).

(** [Vector2 operator+(const Vector2&) const] *)
Definition op_add (v vector : t) : t :=
  mk (Flt.add (x_ v) (x vector)) (Flt.add (y_ v) (y vector)).

(** [Vector2 operator-(const Vector2&) const] *)
Definition op_sub (v vector : t) : t :=
  mk (Flt.sub (x_ v) (x vector)) (Flt.sub (y_ v) (y vector)).

(** [bool operator==(const Vector2&) const].  The difference is a [float];
    [fabs] is exact and promotion to [double] keeps the order, so the test
    has the same outcome whichever overload of [fabs] is selected. *)
Definition op_eq (v vector : t) : bool :=
  Flt.ltb (Flt.fabs (Flt.sub (x_ v) (x vector))) FLT_EPSILON
  && Flt.ltb (Flt.fabs (Flt.sub (y_ v) (y vector))) FLT_EPSILON.

(** [bool operator!=(const Vector2&) const]; [a > b] is [b < a]. *)
Definition op_ne (v vector : t) : bool :=
  Flt.ltb FLT_EPSILON (Flt.fabs (Flt.sub (x_ v) (x vector)))
  && Flt.ltb FLT_EPSILON (Flt.fabs (Flt.sub (y_ v) (y vector))).

(** [float GetLengthSquared() const] *)
Definition GetLengthSquared (v : t) : float :=
  Flt.add (Flt.mul (x_ v) (x_ v)) (Flt.mul (y_ v) (y_ v)).

(** The local [length] of [normalized()], a [double]. *)
Definition length (v : t) : double :=
  Dbl.sqrt (Dbl.add (pow_2 (x_ v)) (pow_2 (y_ v))).


(** [Vector2 LeftNormalVector() const] *)
Definition LeftNormalVector (v : t) : t := mk (Flt.opp (y v)) (x v).

Section Angles.
(** The library function [atan2] is not part of the sources; it is a
    parameter here.  [atan2 b a] is the value that the call
    [atan2(b, a)] on two [float] arguments yields as a [double]. *)
Variable atan2 : float -> float -> double.

(** [double polarAngle() const] *)
Definition polarAngle (v : t) : double := atan2 (y v) (x v).

(** [double angleTo(Vector2 *other) const]; [other] is the pointee. *)
Definition angleTo (v other : t) : double :=
  let angleThis := polarAngle v in
  let angleOther := polarAngle other in
  let diffAngle := Dbl.sub angleOther angleThis in
  if Dbl.ltb M_PI diffAngle then Dbl.sub diffAngle M_PI
  else if Dbl.leb diffAngle (Dbl.opp M_PI)
       then Dbl.add diffAngle (Dbl.mul (Dbl.of_Z 2) M_PI)
       else diffAngle.
End Angles.

(** Free functions of namespace [SF]. *)

(** [Vector2 operator*(float s, const Vector2&)] *)
Definition scalar_mul (s : float) (vector : t) : t :=
  mk (Flt.mul s (x vector)) (Flt.mul s (y vector)).

(** [float abs(const Vector2&)]: [std::sqrt] on a [float]. *)
Definition abs (vector : t) : float := Flt.sqrt (op_dot vector vector).

(** [float absSq(const Vector2&)] *)
Definition absSq (vector : t) : float := op_dot vector vector.

(** [float det(const Vector2&, const Vector2&)] *)
Definition det (vector1 vector2 : t) : float :=
  Flt.sub (Flt.mul (x vector1) (y vector2)) (Flt.mul (y vector1) (x vector2)).

(** [Vector2 normalize(const Vector2&)] *)
Definition normalize (vector : t) : t := op_div vector (abs vector).

(** [float getLength(const Vector2&)]: computed in [double], narrowed by
    the [float] return type. *)
Definition getLength (vector : t) : float :=
  Dbl.to_float (Dbl.sqrt (Dbl.add (pow_2 (x vector)) (pow_2 (y vector)))).

(** [float getCos(Vector2 a, Vector2 b)] *)
Definition getCos (a b : t) : float :=
  Flt.div (op_dot a b) (Flt.mul (getLength a) (getLength b)).

(** *** In-place operators

    They assign to the members of the receiver one after the other and
    return [*this].  Objects live in a store indexed by addresses; the
    receiver is the address [this], and a [const Vector2&] parameter is
    the address of an object that may be the receiver itself. *)

Definition addr := nat.
Definition store := addr -> t.

Definition set_x (h : store) (a : addr) (f : float) : store :=
  fun b => if Nat.eqb b a then mk f (y_ (h a)) else h b.
Definition set_y (h : store) (a : addr) (f : float) : store :=
  fun b => if Nat.eqb b a then mk (x_ (h a)) f else h b.

(** [Vector2& operator*=(float s)] *)
Definition op_mul_assign (this : addr) (s : float) (h : store) : addr * store :=
  let h := set_x h this (Flt.mul (x_ (h this)) s) in
  let h := set_y h this (Flt.mul (y_ (h this)) s) in
  (this, h).

(** [Vector2& operator/=(float s)] *)
Definition op_div_assign (this : addr) (s : float) (h : store) : addr * store :=
  let invS := Flt.div (Flt.of_Z 1) s in
  let h := set_x h this (Flt.mul (x_ (h this)) invS) in
  let h := set_y h this (Flt.mul (y_ (h this)) invS) in
  (this, h).

(** [Vector2& operator+=(const Vector2& vector)] *)
Definition op_add_assign (this vector : addr) (h : store) : addr * store :=
  let h := set_x h this (Flt.add (x_ (h this)) (x (h vector))) in
  let h := set_y h this (Flt.add (y_ (h this)) (y (h vector))) in
  (this, h).

(** [Vector2& operator-=(const Vector2& vector)] *)
Definition op_sub_assign (this vector : addr) (h : store) : addr * store :=
  let h := set_x h this (Flt.sub (x_ (h this)) (x (h vector))) in
  let h := set_y h this (Flt.sub (y_ (h this)) (y (h vector))) in
  (this, h).

(** [Vector2& operator=(const Vector2 &right)]: nothing is written when
    [right] is the receiver itself. *)
Definition op_assign (this right : addr) (h : store) : addr * store :=
  if Nat.eqb this right then (this, h)
  else
    let h := set_x h this (x_ (h right)) in
    let h := set_y h this (y_ (h right)) in
    (this, h).

End Vector2.

(** ** Vector3.h *)

Module Vector3.

(** [float val_[3]], one field per cell. *)
Record t : Set := mk { val_0 : float; val_1 : float; val_2 : float }.

(** [Vector3()] *)
Definition zero : t := mk Flt.pos_zero Flt.pos_zero Flt.pos_zero.

Definition x (v : t) : float := val_0 v.
Definition y (v : t) : float := val_1 v.
Definition z (v : t) : float := val_2 v.

(** [float operator[](size_t i) const]; reading outside the array is
    undefined and has no result here. *)
Definition index (v : t) (i : nat) : option float :=
  match i with
  | 0%nat => Some (val_0 v)
  | 1%nat => Some (val_1 v)
  | 2%nat => Some (val_2 v)
  | _ => None
  end.

(** [float getLength()] *)
Definition getLength (v : t) : float :=
  Dbl.to_float
    (Dbl.sqrt (Dbl.add (Dbl.add (pow_2 (x v)) (pow_2 (y v))) (pow_2 (z v)))).

(** [Vector3 operator-() const] *)
Definition op_neg (v : t) : t :=
  mk (Flt.opp (val_0 v)) (Flt.opp (val_1 v)) (Flt.opp (val_2 v)).

(** [float operator*(const Vector3&) const] *)
Definition op_dot (v vector : t) : float :=
  Flt.add
    (Flt.add (Flt.mul (val_0 v) (val_0 vector)) (Flt.mul (val_1 v) (val_1 vector)))
    (Flt.mul (val_2 v) (val_2 vector)).

(** [Vector3 operator*(float scalar) const] *)
Definition op_mul (v : t) (scalar : float) : t :=
  mk (Flt.mul (val_0 v) scalar) (Flt.mul (val_1 v) scalar) (Flt.mul (val_2 v) scalar).

(** [Vector3 operator/(float scalar) const] *)
Definition op_div (v : t) (scalar : float) : t :=
  let invScalar := Flt.div (Flt.of_Z 1) scalar in
  mk (Flt.mul (val_0 v) invScalar) (Flt.mul (val_1 v) invScalar)
     (Flt.mul (val_2 v) invScalar).

(** [Vector3 operator+(const Vector3&) const] *)
Definition op_add (v vector : t) : t :=
  mk (Flt.add (val_0 v) (val_0 vector)) (Flt.add (val_1 v) (val_1 vector))
     (Flt.add (val_2 v) (val_2 vector)).

(** [Vector3 operator-(const Vector3&) const] *)
Definition op_sub (v vector : t) : t :=
  mk (Flt.sub (val_0 v) (val_0 vector)) (Flt.sub (val_1 v) (val_1 vector))
     (Flt.sub (val_2 v) (val_2 vector)).

(** [bool operator==(const Vector3&) const] *)
Definition op_eq (v vector : t) : bool :=
  Flt.ltb (Flt.fabs (Flt.sub (val_0 v) (val_0 vector))) FLT_EPSILON
  && Flt.ltb (Flt.fabs (Flt.sub (val_1 v) (val_1 vector))) FLT_EPSILON
  && Flt.ltb (Flt.fabs (Flt.sub (val_2 v) (val_2 vector))) FLT_EPSILON.

(** [bool operator!=(const Vector3&) const] *)
Definition op_ne (v vector : t) : bool :=
  Flt.ltb FLT_EPSILON (Flt.fabs (Flt.sub (val_0 v) (val_0 vector)))
  && Flt.ltb FLT_EPSILON (Flt.fabs (Flt.sub (val_1 v) (val_1 vector)))
  && Flt.ltb FLT_EPSILON (Flt.fabs (Flt.sub (val_2 v) (val_2 vector))).

(** Free functions of namespace [SF]. *)

(** [Vector3 operator*(float scalar, const Vector3&)] *)
Definition scalar_mul (scalar : float) (vector : t) : t :=
  mk (Flt.mul scalar (val_0 vector)) (Flt.mul scalar (val_1 vector))
     (Flt.mul scalar (val_2 vector)).

(** [Vector3 cross(const Vector3&, const Vector3&)] *)
Definition cross (vector1 vector2 : t) : t :=
  mk (Flt.sub (Flt.mul (val_1 vector1) (val_2 vector2))
              (Flt.mul (val_2 vector1) (val_1 vector2)))
     (Flt.sub (Flt.mul (val_2 vector1) (val_0 vector2))
              (Flt.mul (val_0 vector1) (val_2 vector2)))
     (Flt.sub (Flt.mul (val_0 vector1) (val_1 vector2))
              (Flt.mul (val_1 vector1) (val_0 vector2))).

(** [float abs(const Vector3&)] *)
Definition abs (vector : t) : float := Flt.sqrt (op_dot vector vector).

(** [float absSq(const Vector3&)] *)
Definition absSq (vector : t) : float := op_dot vector vector.

(** [Vector3 normalize(const Vector3&)] *)
Definition normalize (vector : t) : t := op_div vector (abs vector).

(** *** In-place operators, over a store of [Vector3] objects *)

Definition addr := nat.
Definition store := addr -> t.

(** [val_[i] = f] in the object at [a], for [i] = 0, 1, 2. *)
Definition set_0 (h : store) (a : addr) (f : float) : store :=
  fun b => if Nat.eqb b a then mk f (val_1 (h a)) (val_2 (h a)) else h b.
Definition set_1 (h : store) (a : addr) (f : float) : store :=
  fun b => if Nat.eqb b a then mk (val_0 (h a)) f (val_2 (h a)) else h b.
Definition set_2 (h : store) (a : addr) (f : float) : store :=
  fun b => if Nat.eqb b a then mk (val_0 (h a)) (val_1 (h a)) f else h b.

(** [Vector3& operator*=(float scalar)] *)
Definition op_mul_assign (this : addr) (scalar : float) (h : store) : addr * store :=
  let h := set_0 h this (Flt.mul (val_0 (h this)) scalar) in
  let h := set_1 h this (Flt.mul (val_1 (h this)) scalar) in
  let h := set_2 h this (Flt.mul (val_2 (h this)) scalar) in
  (this, h).

(** [Vector3& operator/=(float scalar)] *)
Definition op_div_assign (this : addr) (scalar : float) (h : store) : addr * store :=
  let invScalar := Flt.div (Flt.of_Z 1) scalar in
  let h := set_0 h this (Flt.mul (val_0 (h this)) invScalar) in
  let h := set_1 h this (Flt.mul (val_1 (h this)) invScalar) in
  let h := set_2 h this (Flt.mul (val_2 (h this)) invScalar) in
  (this, h).

(** [Vector3& operator+=(const Vector3& vector)] *)
Definition op_add_assign (this vector : addr) (h : store) : addr * store :=
  let h := set_0 h this (Flt.add (val_0 (h this)) (val_0 (h vector))) in
  let h := set_1 h this (Flt.add (val_1 (h this)) (val_1 (h vector))) in
  let h := set_2 h this (Flt.add (val_2 (h this)) (val_2 (h vector))) in
  (this, h).

(** [Vector3& operator-=(const Vector3& vector)] *)
Definition op_sub_assign (this vector : addr) (h : store) : addr * store :=
  let h := set_0 h this (Flt.sub (val_0 (h this)) (val_0 (h vector))) in
  let h := set_1 h this (Flt.sub (val_1 (h this)) (val_1 (h vector))) in
  let h := set_2 h this (Flt.sub (val_2 (h this)) (val_2 (h vector))) in
  (this, h).

(** [Vector3& operator=(const Vector3 &right)] *)
Definition op_assign (this right : addr) (h : store) : addr * store :=
  if Nat.eqb this right then (this, h)
  else
    let h := set_0 h this (val_0 (h right)) in
    let h := set_1 h this (val_1 (h right)) in
    let h := set_2 h this (val_2 (h right)) in
    (this, h).

End Vector3.

(** ** Literals used in the statements *)

Definition f32 (z : Z) : float := Flt.of_Z z.
Definition v2 (a b : Z) : Vector2.t := Vector2.mk (f32 a) (f32 b).
Definition v3 (a b c : Z) : Vector3.t := Vector3.mk (f32 a) (f32 b) (f32 c).

(** ** Predicates used in the statements *)

(** The two numbers differ by strictly more than machine epsilon, as the
    program measures it: the rounded difference, in absolute value, is
    greater than [FLT_EPSILON]. *)
Definition differs_beyond_epsilon (a b : float) : bool :=
  Flt.ltb FLT_EPSILON (Flt.fabs (Flt.sub a b)).

Definition finite2 (v : Vector2.t) : bool :=
  is_finite (Vector2.x v) && is_finite (Vector2.y v).

Definition finite3 (v : Vector3.t) : bool :=
  is_finite (Vector3.x v) && is_finite (Vector3.y v) && is_finite (Vector3.z v).





(** The value is NaN or a zero. *)
Definition nan_or_zero (x : spec_float) : bool :=
  match x with
  | S754_nan | S754_zero _ => true
  | _ => false
  end.

(** The values of [atan2] on the four half-axes, rounded to [double]:
    0, pi/2, pi and -pi/2; used to run [angleTo] on axis vectors. *)
Definition axis_atan2 (b a : float) : double :=
  match b, a with
  | S754_zero _, S754_finite false _ _ => S754_zero false
  | S754_finite false _ _, S754_zero _ => S754_finite false 7074237752028440 (-52)
  | S754_zero false, S754_finite true _ _ => M_PI
  | S754_finite true _ _, S754_zero _ => S754_finite true 7074237752028440 (-52)
  | _, _ => S754_zero false
  end.

(** What a call of an in-place operator leaves behind: the returned
    reference is the receiver [this], the receiver holds [v], and every
    other object of the store [h] is untouched. *)
Definition in_place_result {T : Type} (res : nat * (nat -> T))
    (this : nat) (h : nat -> T) (v : T) : Prop :=
  fst res = this
  /\ snd res this = v
  /\ forall a : nat, a <> this -> snd res a = h a.

(** Two values are the same number when they are equal or both zero
    (of either sign). *)
Definition same_number (a b : spec_float) : Prop :=
  a = b \/ (exists s s', a = S754_zero s /\ b = S754_zero s').

(** The sign bit is set (NaN counts as unsigned). *)
Definition is_negative (x : spec_float) : bool :=
  match x with
  | S754_zero s | S754_infinity s | S754_finite s _ _ => s
  | S754_nan => false
  end.

Definition is_zero (x : spec_float) : bool :=
  match x with
  | S754_zero _ => true
  | _ => false
  end.

(** The components are values of the [float] format. *)
Definition wf2 (v : Vector2.t) : bool :=
  Flt.wf (Vector2.x v) && Flt.wf (Vector2.y v).

Definition wf3 (v : Vector3.t) : bool :=
  Flt.wf (Vector3.x v) && Flt.wf (Vector3.y v) && Flt.wf (Vector3.z v).

(** Both components are zeros, of either sign. *)
Definition zero_vector2 (v : Vector2.t) : bool :=
  is_zero (Vector2.x v) && is_zero (Vector2.y v).

(** The [float] 2^-97, whose square is below the smallest positive
    [float]. *)
Definition tiny : float := S754_finite false 8388608 (-120).

(** Proof steps for the in-place operators: case analysis on the addresses
    compared by the store updates. *)
Ltac case_addresses :=
  repeat match goal with
         | |- context [Nat.eqb ?a ?b] => destruct (Nat.eqb_spec a b); subst; simpl
         end.

Ltac in_place_op :=
  intros; unfold in_place_result; simpl; split; [reflexivity|split];
  [ unfold Vector2.set_x, Vector2.set_y, Vector3.set_0, Vector3.set_1, Vector3.set_2;
    rewrite ?Nat.eqb_refl; simpl; case_addresses;
    try match goal with
        | |- context [?h ?this] => destruct (h this); reflexivity
        end
  | intros a Ha;
    unfold Vector2.set_x, Vector2.set_y, Vector3.set_0, Vector3.set_1, Vector3.set_2;
    apply Nat.eqb_neq in Ha; now rewrite ?Ha ].

(** ** Facts about the arithmetic, for any format *)

Section Arithmetic.
Variables prec emax : Z.

Lemma opp_round_aux (s : bool) (m e : Z) (l : location) :
  SFopp (binary_round_aux prec emax s m e l)
  = binary_round_aux prec emax (negb s) m e l.
Proof.
  unfold binary_round_aux.
  destruct (shr_fexp prec emax m e l) as [mrs e'].
  destruct (shr_fexp prec emax _ e' loc_Exact) as [mrs' e''].
  destruct (shr_m mrs'); simpl; trivial.
  now destruct (Z.leb e'' (Z.sub emax prec)).
Qed.

Lemma opp_round (s : bool) (m : positive) (e : Z) :
  SFopp (binary_round prec emax s m e) = binary_round prec emax (negb s) m e.
Proof.
  unfold binary_round.
  destruct (shl_align m e _) as [mz ez].
  apply opp_round_aux.
Qed.

Lemma normalize_opp (n e : Z) :
  same_number (binary_normalize prec emax (- n) e false)
              (SFopp (binary_normalize prec emax n e false)).
Proof.
  destruct n as [|k|k]; simpl.
  - right. now exists false, true.
  - left. now rewrite opp_round.
  - left. now rewrite opp_round.
Qed.

Lemma shl_align_same (m : positive) (e : Z) : shl_align m e e = (m, e).
Proof. unfold shl_align. now rewrite Z.sub_diag. Qed.

Lemma mul_comm (a b : spec_float) : SFmul prec emax a b = SFmul prec emax b a.
Proof.
  destruct a as [sa|sa| |sa ma ea], b as [sb|sb| |sb mb eb]; simpl;
    try reflexivity; try (now rewrite xorb_comm).
  now rewrite xorb_comm, Pos.mul_comm, Z.add_comm.
Qed.

(** [x + (-x)] is [+0] for every finite [x]. *)
Lemma add_opp_diag (a : spec_float) :
  is_finite a = true -> SFadd prec emax a (SFopp a) = S754_zero false.
Proof.
  destruct a as [s|s| |s m e]; simpl; try discriminate; intros _.
  - now destruct s.
  - rewrite Z.min_id, shl_align_same. simpl.
    replace (cond_Zopp s (Zpos m) + cond_Zopp (negb s) (Zpos m)) with 0.
    + reflexivity.
    + destruct s; unfold cond_Zopp, negb; lia.
Qed.

(** [x - x] is [+0] for every finite [x]. *)
Lemma sub_diag (a : spec_float) :
  is_finite a = true -> SFsub prec emax a a = S754_zero false.
Proof.
  destruct a as [s|s| |s m e]; simpl; try discriminate; intros _.
  - now destruct s.
  - rewrite Z.min_id, shl_align_same. simpl.
    now rewrite Z.sub_diag.
Qed.

(** [a - b] and [-(b - a)] are the same number when [a - b] is finite. *)
Lemma sub_antisym (a b : spec_float) :
  is_finite (SFsub prec emax a b) = true ->
  same_number (SFsub prec emax a b) (SFopp (SFsub prec emax b a)).
Proof.
  destruct a as [sa|sa| |sa ma ea], b as [sb|sb| |sb mb eb]; simpl;
    try discriminate; intros H.
  - destruct sa, sb; simpl; right; eauto.
  - left. reflexivity.
  - destruct sa, sb; discriminate.
  - left. now rewrite negb_involutive.
  - rewrite (Z.min_comm eb ea).
    set (ez := Z.min ea eb).
    set (x := cond_Zopp sa (Zpos (fst (shl_align ma ea ez)))).
    set (y := cond_Zopp sb (Zpos (fst (shl_align mb eb ez)))).
    replace (x - y) with (- (y - x)) by lia.
    apply normalize_opp.
Qed.

(** The difference of two finite values that are the same number is a
    zero. *)
Lemma sub_same_number (a b : spec_float) :
  is_finite a = true -> same_number a b ->
  exists s, SFsub prec emax a b = S754_zero s.
Proof.
  intros Hfin [<- | (s & s' & -> & ->)].
  - exists false. now apply sub_diag.
  - simpl. destruct s, s'; eauto.
Qed.

(** [a < b] and [b < a] exclude each other. *)
Lemma ltb_asym (a b : spec_float) : SFltb a b = true -> SFltb b a = false.
Proof.
  unfold SFltb.
  destruct a as [sa|sa| |sa ma ea], b as [sb|sb| |sb mb eb]; simpl;
    try discriminate; try reflexivity;
    try (destruct sa; (discriminate || reflexivity));
    try (destruct sb; (discriminate || reflexivity));
    try (destruct sa, sb; (discriminate || reflexivity)).
  destruct sa, sb; try discriminate; try reflexivity;
    rewrite (Z.compare_antisym ea eb);
    destruct (Z.compare ea eb); simpl; try discriminate; try reflexivity;
    change (Pos.compare_cont Eq mb ma) with (Pos.compare mb ma);
    change (Pos.compare_cont Eq ma mb) with (Pos.compare ma mb);
    rewrite (Pos.compare_antisym ma mb);
    destruct (Pos.compare ma mb); simpl; (discriminate || reflexivity).
Qed.
End Arithmetic.

(** ** Facts about the constants and the epsilon tests *)

(** [M_PI] is the binary64 number nearest to the literal of the [#define]:
    the literal is within half a unit in the last place (2^-52) of it. *)
Lemma M_PI_nearest :
  M_PI = S754_finite false 7074237752028440 (-51)
  /\ Dbl.wf M_PI = true
  /\ 2 * Z.abs (31415926535897932384626433832795 * 2 ^ 51
                - 7074237752028440 * 10 ^ 31) <= 10 ^ 31.
Proof.
  split; [reflexivity|].
  split; [vm_compute; reflexivity|].
  vm_compute. discriminate.
Qed.

Lemma FLT_EPSILON_canonical : Flt.wf FLT_EPSILON = true.
Proof. reflexivity. Qed.

(** A zero passes the test [fabs(.) < FLT_EPSILON]. *)
Lemma zero_below_epsilon (s : bool) :
  Flt.ltb (Flt.fabs (S754_zero s)) FLT_EPSILON = true.
Proof. reflexivity. Qed.

(** Two finite values that are the same number pass the test of
    [operator==]. *)
Lemma same_number_within_epsilon (a b : float) :
  is_finite a = true -> same_number a b ->
  Flt.ltb (Flt.fabs (Flt.sub a b)) FLT_EPSILON = true.
Proof.
  intros Hfin Hsame.
  destruct (sub_same_number Flt.prec Flt.emax a b Hfin Hsame) as [s Hs].
  unfold Flt.sub. rewrite Hs. apply zero_below_epsilon.
Qed.



(** The facts above at the [float] format. *)
Lemma Flt_mul_comm (a b : float) : Flt.mul a b = Flt.mul b a.
Proof. apply mul_comm. Qed.

Lemma Flt_sub_diag (a : float) : is_finite a = true -> Flt.sub a a = Flt.pos_zero.
Proof. apply sub_diag. Qed.

Lemma Flt_add_opp_diag (a : float) :
  is_finite a = true -> Flt.add a (Flt.opp a) = Flt.pos_zero.
Proof. apply add_opp_diag. Qed.

Lemma Flt_sub_antisym (a b : float) :
  is_finite (Flt.sub a b) = true ->
  Flt.ltb (Flt.fabs (Flt.sub (Flt.sub a b) (Flt.opp (Flt.sub b a)))) FLT_EPSILON = true
  /\ same_number (Flt.sub a b) (Flt.opp (Flt.sub b a)).
Proof.
  intros H. pose proof (sub_antisym _ _ _ _ H) as S.
  split; [|exact S].
  now apply same_number_within_epsilon.
Qed.

(** ** The epsilon comparisons (C1) *)

(** C1.  For [Vector2] and [Vector3], [operator!=] returns true if and only
    if every component differs from the corresponding component of the
    argument by strictly more than [FLT_EPSILON].  It is therefore not the
    negation of [operator==]: [Vector3(2,3,4) == Vector3(2,3,4)] is true,
    [Vector3(2,3,4) == Vector3(2,3,5)] is false and
    [Vector3(2,3,4) != Vector3(2,3,5)] is false as well.  The comparison is
    strict: a difference of exactly [FLT_EPSILON] is not "different". *)
Theorem ne_iff_all_components_differ :
  (forall v u : Vector2.t,
      Vector2.op_ne v u = true <->
      differs_beyond_epsilon (Vector2.x v) (Vector2.x u) = true
      /\ differs_beyond_epsilon (Vector2.y v) (Vector2.y u) = true)
  /\ (forall v u : Vector3.t,
      Vector3.op_ne v u = true <->
      differs_beyond_epsilon (Vector3.x v) (Vector3.x u) = true
      /\ differs_beyond_epsilon (Vector3.y v) (Vector3.y u) = true
      /\ differs_beyond_epsilon (Vector3.z v) (Vector3.z u) = true)
  /\ Vector3.op_eq (v3 2 3 4) (v3 2 3 4) = true
  /\ Vector3.op_eq (v3 2 3 4) (v3 2 3 5) = false
  /\ Vector3.op_ne (v3 2 3 4) (v3 2 3 5) = false
  /\ Vector2.op_eq (v2 2 3) (v2 2 4) = false
  /\ Vector2.op_ne (v2 2 3) (v2 2 4) = false
  /\ differs_beyond_epsilon (Flt.add (f32 1) FLT_EPSILON) (f32 1) = false
  /\ (forall v u : Vector2.t, Vector2.op_ne v u = true -> Vector2.op_eq v u = false)
  /\ (forall v u : Vector3.t, Vector3.op_ne v u = true -> Vector3.op_eq v u = false).
Proof.
  split; [|split].
  - intros [a b] [c d]. unfold Vector2.op_ne, differs_beyond_epsilon. simpl.
    apply andb_true_iff.
  - intros [a b c] [d e f]. unfold Vector3.op_ne, differs_beyond_epsilon. simpl.
    rewrite !andb_true_iff. tauto.
  - do 6 (split; [vm_compute; reflexivity|]). split.
    + intros [a b] [c d]. unfold Vector2.op_ne, Vector2.op_eq. simpl.
      intros H. apply andb_prop in H. destruct H as [H _].
      apply ltb_asym in H. unfold Flt.ltb. now rewrite H.
    + intros [a b c] [d e f]. unfold Vector3.op_ne, Vector3.op_eq. simpl.
      intros H. apply andb_prop in H. destruct H as [H _].
      apply andb_prop in H. destruct H as [H _].
      apply ltb_asym in H. unfold Flt.ltb. now rewrite H.
Qed.

(** ** Algebraic identities (C4, C5, C6, C7) *)

(** C4, as stated, fails: a vector with an infinite component is a value of
    the type, and [inf + (-inf)] is NaN, which passes no epsilon test. *)
Lemma add_neg_infinite_not_zero :
  let v := Vector2.mk Flt.infinity (f32 0) in
  let w := Vector3.mk Flt.infinity (f32 0) (f32 0) in
  Vector2.op_add v (Vector2.op_neg v) = Vector2.mk Flt.nan Flt.pos_zero
  /\ Vector2.op_eq (Vector2.op_add v (Vector2.op_neg v)) Vector2.zero = false
  /\ Vector3.op_eq (Vector3.op_add w (Vector3.op_neg w)) Vector3.zero = false.
Proof. vm_compute. auto. Qed.

(** C4, amended.  For every [Vector2] and every [Vector3] with finite
    components, [v + (-v)] is the zero vector (each component is [+0]) and
    compares equal to it under [operator==]. *)
Theorem add_neg_eq_zero_finite :
  (forall v : Vector2.t, finite2 v = true ->
      Vector2.op_add v (Vector2.op_neg v) = Vector2.zero
      /\ Vector2.op_eq (Vector2.op_add v (Vector2.op_neg v)) Vector2.zero = true)
  /\ (forall v : Vector3.t, finite3 v = true ->
      Vector3.op_add v (Vector3.op_neg v) = Vector3.zero
      /\ Vector3.op_eq (Vector3.op_add v (Vector3.op_neg v)) Vector3.zero = true).
Proof.
  split.
  - intros [a b]. unfold finite2. simpl. intros H.
    apply andb_prop in H. destruct H as [Ha Hb].
    assert (E : Vector2.op_add (Vector2.mk a b) (Vector2.op_neg (Vector2.mk a b))
                = Vector2.zero).
    { unfold Vector2.op_add, Vector2.op_neg, Vector2.zero. simpl.
      now rewrite !Flt_add_opp_diag. }
    rewrite E. split; [reflexivity | vm_compute; reflexivity].
  - intros [a b c]. unfold finite3. simpl. intros H.
    apply andb_prop in H. destruct H as [H Hc].
    apply andb_prop in H. destruct H as [Ha Hb].
    assert (E : Vector3.op_add (Vector3.mk a b c) (Vector3.op_neg (Vector3.mk a b c))
                = Vector3.zero).
    { unfold Vector3.op_add, Vector3.op_neg, Vector3.zero. simpl.
      now rewrite !Flt_add_opp_diag. }
    rewrite E. split; [reflexivity | vm_compute; reflexivity].
Qed.

Lemma add_neg_eq_zero_finite_witness :
  (finite2 (v2 3 (-4)) = true
   /\ Vector2.op_eq (Vector2.op_add (v2 3 (-4)) (Vector2.op_neg (v2 3 (-4))))
                    Vector2.zero = true)
  /\ (finite3 (v3 2 3 4) = true
      /\ Vector3.op_eq (Vector3.op_add (v3 2 3 4) (Vector3.op_neg (v3 2 3 4)))
                       Vector3.zero = true).
Proof.
  split; (split; [vm_compute; reflexivity|]).
  - apply (proj1 add_neg_eq_zero_finite (v2 3 (-4))). vm_compute. reflexivity.
  - apply (proj2 add_neg_eq_zero_finite (v3 2 3 4)). vm_compute. reflexivity.
Defined.

(** C5, as stated, fails: when a product of two components is infinite
    the two products of a component of [cross] cancel to NaN, and an
    infinite component of [cross(a,b)] is not within epsilon of itself. *)
Lemma cross_infinite_counterexample :
  let v := Vector3.mk Flt.infinity (f32 1) (f32 1) in
  let a := Vector3.mk (f32 0) Flt.infinity (f32 0) in
  let b := v3 1 0 1 in
  Vector3.cross v v = Vector3.mk Flt.pos_zero Flt.nan Flt.nan
  /\ Vector3.op_eq (Vector3.cross v v) Vector3.zero = false
  /\ Vector3.cross a b = Vector3.mk Flt.infinity Flt.pos_zero (Flt.opp Flt.infinity)
  /\ Vector3.op_neg (Vector3.cross b a)
     = Vector3.mk Flt.infinity Flt.neg_zero (Flt.opp Flt.infinity)
  /\ Vector3.op_eq (Vector3.cross a b) (Vector3.op_neg (Vector3.cross b a)) = false
  /\ Vector3.op_eq (Vector3.cross (v3 0 (10 ^ 30) 0) (v3 0 0 (10 ^ 30)))
                   (Vector3.op_neg (Vector3.cross (v3 0 0 (10 ^ 30)) (v3 0 (10 ^ 30) 0)))
     = false.
Proof. vm_compute. repeat split. Qed.

(** C5, amended.  For every [Vector3] [v] whose pairwise component products
    are finite, [cross(v, v)] is the zero vector; for all [a] and [b] such
    that [cross(a, b)] has finite components, [cross(a, b)] compares equal
    to [-cross(b, a)] under [operator==], component by component the same
    number; and [cross(Vector3(1,0,0), Vector3(0,1,0))] is
    [Vector3(0,0,1)]. *)
Theorem cross_identities_finite :
  (forall v : Vector3.t,
      is_finite (Flt.mul (Vector3.y v) (Vector3.z v)) = true ->
      is_finite (Flt.mul (Vector3.z v) (Vector3.x v)) = true ->
      is_finite (Flt.mul (Vector3.x v) (Vector3.y v)) = true ->
      Vector3.cross v v = Vector3.zero)
  /\ (forall a b : Vector3.t,
      finite3 (Vector3.cross a b) = true ->
      Vector3.op_eq (Vector3.cross a b) (Vector3.op_neg (Vector3.cross b a)) = true
      /\ same_number (Vector3.x (Vector3.cross a b))
                     (Vector3.x (Vector3.op_neg (Vector3.cross b a)))
      /\ same_number (Vector3.y (Vector3.cross a b))
                     (Vector3.y (Vector3.op_neg (Vector3.cross b a)))
      /\ same_number (Vector3.z (Vector3.cross a b))
                     (Vector3.z (Vector3.op_neg (Vector3.cross b a))))
  /\ Vector3.cross (v3 1 0 0) (v3 0 1 0) = v3 0 0 1.
Proof.
  split; [|split].
  - intros [a b c]. unfold Vector3.cross, Vector3.zero. simpl.
    intros Hbc Hca Hab.
    rewrite (Flt_mul_comm c b), (Flt_mul_comm a c), (Flt_mul_comm b a).
    now rewrite !Flt_sub_diag.
  - intros [a0 a1 a2] [b0 b1 b2].
    unfold finite3, Vector3.op_eq, Vector3.op_neg, Vector3.cross. simpl.
    rewrite (Flt_mul_comm b1 a2), (Flt_mul_comm b2 a1), (Flt_mul_comm b2 a0),
      (Flt_mul_comm b0 a2), (Flt_mul_comm b0 a1), (Flt_mul_comm b1 a0).
    intros H.
    apply andb_prop in H. destruct H as [H H2].
    apply andb_prop in H. destruct H as [H0 H1].
    destruct (Flt_sub_antisym _ _ H0) as [E0 S0].
    destruct (Flt_sub_antisym _ _ H1) as [E1 S1].
    destruct (Flt_sub_antisym _ _ H2) as [E2 S2].
    rewrite E0, E1, E2. now repeat split.
  - vm_compute. reflexivity.
Qed.

Lemma cross_identities_finite_witness :
  Vector3.cross (v3 2 (-3) 5) (v3 2 (-3) 5) = Vector3.zero
  /\ (finite3 (Vector3.cross (v3 1 2 3) (v3 (-4) 5 6)) = true
      /\ Vector3.op_eq (Vector3.cross (v3 1 2 3) (v3 (-4) 5 6))
                       (Vector3.op_neg (Vector3.cross (v3 (-4) 5 6) (v3 1 2 3))) = true).
Proof.
  split; [|split].
  - apply (proj1 cross_identities_finite (v3 2 (-3) 5)); vm_compute; reflexivity.
  - vm_compute. reflexivity.
  - apply (proj1 (proj2 cross_identities_finite) (v3 1 2 3) (v3 (-4) 5 6)).
    vm_compute. reflexivity.
Defined.

(** C6, as stated, fails: with an infinite component, or with finite
    components whose product overflows, both products are infinite and
    their difference is NaN. *)
Lemma det_self_not_zero :
  Vector2.det (Vector2.mk Flt.infinity (f32 1)) (Vector2.mk Flt.infinity (f32 1))
  = Flt.nan
  /\ Vector2.det (v2 (10 ^ 20) (10 ^ 20)) (v2 (10 ^ 20) (10 ^ 20)) = Flt.nan
  /\ Flt.eqb Flt.nan Flt.pos_zero = false.
Proof. vm_compute. auto. Qed.

(** C6, amended.  For every [Vector2] [v] whose component product [x * y] is
    finite, [det(v, v)] is [+0]. *)
Theorem det_self_zero_finite (v : Vector2.t) :
  is_finite (Flt.mul (Vector2.x v) (Vector2.y v)) = true ->
  Vector2.det v v = Flt.pos_zero.
Proof.
  destruct v as [a b]. unfold Vector2.det. simpl. intros H.
  rewrite (Flt_mul_comm b a). now apply Flt_sub_diag.
Qed.

Lemma det_self_zero_finite_witness :
  is_finite (Flt.mul (Vector2.x (v2 3 4)) (Vector2.y (v2 3 4))) = true
  /\ Vector2.det (v2 3 4) (v2 3 4) = Flt.pos_zero.
Proof.
  split.
  - vm_compute. reflexivity.
  - apply (det_self_zero_finite (v2 3 4)). vm_compute. reflexivity.
Defined.

(** C7.  For every [Vector2] and every [Vector3], the dot product [v * v]
    is [absSq(v)]: the very same floating-point value. *)
Theorem dot_self_is_absSq :
  (forall v : Vector2.t, Vector2.op_dot v v = Vector2.absSq v)
  /\ (forall v : Vector3.t, Vector3.op_dot v v = Vector3.absSq v).
Proof. split; intros v; reflexivity. Qed.

(** ** Scalar division (C8) *)

(** C8.  For [Vector2] and [Vector3], [operator/(s)] computes the reciprocal
    [1/s] once and multiplies every component by it.  It is defined for
    every [s]: nothing is checked and nothing is raised, and a zero [s]
    gives infinite or NaN components.  (Multiplying by the reciprocal is
    not dividing: [5 * (1/3)] and [5 / 3] differ in the last place.) *)
Theorem op_div_multiplies_by_reciprocal :
  (forall (v : Vector2.t) (s : float),
      Vector2.op_div v s
      = Vector2.mk (Flt.mul (Vector2.x v) (Flt.div (f32 1) s))
                   (Flt.mul (Vector2.y v) (Flt.div (f32 1) s)))
  /\ (forall (v : Vector3.t) (s : float),
      Vector3.op_div v s
      = Vector3.mk (Flt.mul (Vector3.x v) (Flt.div (f32 1) s))
                   (Flt.mul (Vector3.y v) (Flt.div (f32 1) s))
                   (Flt.mul (Vector3.z v) (Flt.div (f32 1) s)))
  /\ (forall v : Vector2.t,
      Vector2.op_div v Flt.pos_zero
      = Vector2.mk (Flt.mul (Vector2.x v) Flt.infinity)
                   (Flt.mul (Vector2.y v) Flt.infinity))
  /\ (forall v : Vector3.t,
      Vector3.op_div v Flt.pos_zero
      = Vector3.mk (Flt.mul (Vector3.x v) Flt.infinity)
                   (Flt.mul (Vector3.y v) Flt.infinity)
                   (Flt.mul (Vector3.z v) Flt.infinity))
  /\ Vector2.op_div (v2 1 0) (f32 0) = Vector2.mk Flt.infinity Flt.nan
  /\ Vector3.op_div (v3 1 0 (-1)) (f32 0)
     = Vector3.mk Flt.infinity Flt.nan (Flt.opp Flt.infinity)
  /\ Vector2.op_div (v2 3 (-4)) (f32 2)
     = Vector2.mk (Flt.div (f32 3) (f32 2)) (f32 (-2))
  /\ Vector2.x (Vector2.op_div (v2 5 0) (f32 3)) <> Flt.div (f32 5) (f32 3).
Proof.
  split; [intros [a b] s; reflexivity|].
  split; [intros [a b c] s; reflexivity|].
  split; [intros [a b]; reflexivity|].
  split; [intros [a b c]; reflexivity|].
  do 3 (split; [vm_compute; reflexivity|]).
  vm_compute. discriminate.
Qed.

(** ** [normalized()] (C2) *)






(** ** [angleTo] (C3) *)

(** C3.  For every receiver [t] and argument [o], [t.angleTo(o)] is the
    difference [d = atan2(o.y, o.x) - atan2(t.y, t.x)], less pi when [d] is
    greater than pi, plus [2 * pi] when [d] is at most [-pi], and [d] itself
    otherwise; whatever the library's [atan2] returns. *)
Theorem angleTo_wrap (atan2 : float -> float -> double) (t o : Vector2.t) :
  let d := Dbl.sub (atan2 (Vector2.y o) (Vector2.x o))
                   (atan2 (Vector2.y t) (Vector2.x t)) in
  (Dbl.ltb M_PI d = true ->
     Vector2.angleTo atan2 t o = Dbl.sub d M_PI)
  /\ (Dbl.ltb M_PI d = false -> Dbl.leb d (Dbl.opp M_PI) = true ->
     Vector2.angleTo atan2 t o = Dbl.add d (Dbl.mul (Dbl.of_Z 2) M_PI))
  /\ (Dbl.ltb M_PI d = false -> Dbl.leb d (Dbl.opp M_PI) = false ->
     Vector2.angleTo atan2 t o = d).
Proof.
  intros d. unfold Vector2.angleTo, Vector2.polarAngle. fold d.
  repeat split.
  - intros H. now rewrite H.
  - intros H1 H2. now rewrite H1, H2.
  - intros H1 H2. now rewrite H1, H2.
Qed.

(** The three branches, run on axis vectors: from [(0,-1)] to [(-1,0)] the
    difference [3 pi / 2] exceeds pi and pi is subtracted; from [(-1,0)] to
    [(0,-1)] the difference [-3 pi / 2] is below [-pi] and [2 pi] is added;
    from [(1,0)] to [(0,1)] the difference [pi / 2] is returned as it is. *)
Lemma angleTo_wrap_witness :
  let half_pi := S754_finite false 7074237752028440 (-52) in
  (Dbl.ltb M_PI (Dbl.sub M_PI (Dbl.opp half_pi)) = true
   /\ Vector2.angleTo axis_atan2 (v2 0 (-1)) (v2 (-1) 0)
      = Dbl.sub (Dbl.sub M_PI (Dbl.opp half_pi)) M_PI)
  /\ (Dbl.leb (Dbl.sub (Dbl.opp half_pi) M_PI) (Dbl.opp M_PI) = true
      /\ Vector2.angleTo axis_atan2 (v2 (-1) 0) (v2 0 (-1))
         = Dbl.add (Dbl.sub (Dbl.opp half_pi) M_PI) (Dbl.mul (Dbl.of_Z 2) M_PI))
  /\ (Dbl.ltb M_PI half_pi = false
      /\ Dbl.leb half_pi (Dbl.opp M_PI) = false
      /\ Vector2.angleTo axis_atan2 (v2 1 0) (v2 0 1) = half_pi).
Proof.
  intros half_pi.
  split; [|split].
  - split; [vm_compute; reflexivity|].
    apply (proj1 (angleTo_wrap axis_atan2 (v2 0 (-1)) (v2 (-1) 0))).
    vm_compute. reflexivity.
  - split; [vm_compute; reflexivity|].
    apply (proj1 (proj2 (angleTo_wrap axis_atan2 (v2 (-1) 0) (v2 0 (-1)))));
      vm_compute; reflexivity.
  - split; [vm_compute; reflexivity|].
    split; [vm_compute; reflexivity|].
    apply (proj2 (proj2 (angleTo_wrap axis_atan2 (v2 1 0) (v2 0 1))));
      vm_compute; reflexivity.
Defined.

(** ** The two lengths of a [Vector2] (C9) *)





(** ** In-place operators (C10) *)

(** C10.  For [Vector2] and [Vector3], each of [*=], [/=], [+=] and [-=]
    returns a reference to the receiver and leaves in it the value of the
    pure operator applied to the receiver's prior value; no other object
    changes.  The argument of [+=] and [-=] may be the receiver itself. *)
Theorem in_place_agrees_with_pure :
  (forall this s h,
      in_place_result (Vector2.op_mul_assign this s h) this h
                      (Vector2.op_mul (h this) s))
  /\ (forall this s h,
      in_place_result (Vector2.op_div_assign this s h) this h
                      (Vector2.op_div (h this) s))
  /\ (forall this vector h,
      in_place_result (Vector2.op_add_assign this vector h) this h
                      (Vector2.op_add (h this) (h vector)))
  /\ (forall this vector h,
      in_place_result (Vector2.op_sub_assign this vector h) this h
                      (Vector2.op_sub (h this) (h vector)))
  /\ (forall this scalar h,
      in_place_result (Vector3.op_mul_assign this scalar h) this h
                      (Vector3.op_mul (h this) scalar))
  /\ (forall this scalar h,
      in_place_result (Vector3.op_div_assign this scalar h) this h
                      (Vector3.op_div (h this) scalar))
  /\ (forall this vector h,
      in_place_result (Vector3.op_add_assign this vector h) this h
                      (Vector3.op_add (h this) (h vector)))
  /\ (forall this vector h,
      in_place_result (Vector3.op_sub_assign this vector h) this h
                      (Vector3.op_sub (h this) (h vector))).
Proof.
  do 7 (split; [in_place_op|]). in_place_op.
Qed.

(** ** Further facts about the arithmetic, for any format *)

Section MoreArithmetic.
Variables prec emax : Z.

Lemma sub_as_add (a b : spec_float) :
  SFsub prec emax a b = SFadd prec emax a (SFopp b).
Proof.
  destruct a as [sa|sa| |sa ma ea], b as [sb|sb| |sb mb eb]; simpl;
    try reflexivity; destruct sa, sb; reflexivity.
Qed.

Lemma add_comm (a b : spec_float) : SFadd prec emax a b = SFadd prec emax b a.
Proof.
  destruct a as [sa|sa| |sa ma ea], b as [sb|sb| |sb mb eb]; simpl;
    try reflexivity; try (destruct sa, sb; reflexivity).
  rewrite (Z.min_comm eb ea). f_equal. lia.
Qed.

Lemma abs_same_number (a b : spec_float) :
  same_number a (SFopp b) -> SFabs a = SFabs b.
Proof.
  intros [-> | (s & s' & -> & H)].
  - now destruct b.
  - destruct b; try discriminate. reflexivity.
Qed.

(** [|a - b|] and [|b - a|] are the same value, whatever [a] and [b]. *)
Lemma abs_sub_sym (a b : spec_float) :
  SFabs (SFsub prec emax a b) = SFabs (SFsub prec emax b a).
Proof.
  destruct a as [sa|sa| |sa ma ea], b as [sb|sb| |sb mb eb]; simpl;
    try reflexivity; try (destruct sa, sb; reflexivity).
  rewrite (Z.min_comm eb ea).
  set (ez := Z.min ea eb).
  set (x := cond_Zopp sa (Zpos (fst (shl_align ma ea ez)))).
  set (y := cond_Zopp sb (Zpos (fst (shl_align mb eb ez)))).
  replace (x - y) with (- (y - x)) by lia.
  apply abs_same_number, normalize_opp.
Qed.

Lemma mul_opp_r (a b : spec_float) :
  SFmul prec emax a (SFopp b) = SFopp (SFmul prec emax a b).
Proof.
  destruct a as [sa|sa| |sa ma ea], b as [sb|sb| |sb mb eb]; simpl;
    try reflexivity; try (now rewrite xorb_negb_r || now destruct sa, sb).
  rewrite opp_round_aux. now destruct sa, sb.
Qed.

Lemma opp_involutive (a : spec_float) : SFopp (SFopp a) = a.
Proof. destruct a; simpl; now rewrite ?negb_involutive. Qed.

Lemma round_aux_not_negative (m e : Z) (l : location) :
  is_negative (binary_round_aux prec emax false m e l) = false.
Proof.
  unfold binary_round_aux.
  destruct (shr_fexp prec emax m e l) as [mrs e'].
  destruct (shr_fexp prec emax _ e' loc_Exact) as [mrs' e''].
  destruct (shr_m mrs'); simpl; trivial.
  now destruct (Z.leb e'' (Z.sub emax prec)).
Qed.

Lemma mul_self_not_negative (a : spec_float) :
  is_negative (SFmul prec emax a a) = false.
Proof.
  destruct a as [s|s| |s m e]; simpl; try reflexivity;
    destruct s; try reflexivity; apply round_aux_not_negative.
Qed.

Lemma add_not_negative (a b : spec_float) :
  is_negative a = false -> is_negative b = false ->
  is_negative (SFadd prec emax a b) = false.
Proof.
  destruct a as [sa|sa| |sa ma ea], b as [sb|sb| |sb mb eb]; simpl;
    intros Ha Hb; subst; try reflexivity.
  simpl. unfold binary_round.
  destruct (shl_align _ _ _) as [mz ez]. apply round_aux_not_negative.
Qed.

Lemma sqrt_not_negative (a : spec_float) :
  is_negative a = false -> is_negative (SFsqrt prec emax a) = false.
Proof.
  destruct a as [s|s| |s m e]; simpl; intros Ha; subst; try reflexivity.
  destruct (SFsqrt_core_binary prec emax (Zpos m) e) as [[mz ez] lz].
  apply round_aux_not_negative.
Qed.
End MoreArithmetic.

Lemma not_negative_not_below_zero (a : spec_float) :
  is_negative a = false -> SFltb a (S754_zero false) = false.
Proof. destruct a as [s|s| |s m e]; simpl; intros Ha; subst; reflexivity. Qed.

(** ** Multiplication by one in [float] *)

Lemma canonical_fexp (s : bool) (m : positive) (e : Z) :
  Flt.wf (S754_finite s m e) = true ->
  fexp Flt.prec Flt.emax (Zpos (digits2_pos m) + e) = e /\ e <= 104.
Proof.
  unfold Flt.wf, valid_binary, bounded, canonical_mantissa.
  intros H. apply andb_prop in H. destruct H as [H1 H2].
  apply Z.eqb_eq in H1. apply Z.leb_le in H2.
  split; [exact H1|exact H2].
Qed.

(** A canonical mantissa shifted left by 23 bits is rounded back to itself:
    the product with [1.0f] is exact. *)
Lemma mul_one_finite (s : bool) (m : positive) (e : Z) :
  Flt.wf (S754_finite s m e) = true ->
  Flt.mul (S754_finite s m e) (Flt.of_Z 1) = S754_finite s m e.
Proof.
  intros H. destruct (canonical_fexp s m e H) as [Hc He].
  change (Flt.of_Z 1) with (S754_finite false 8388608 (-23)).
  unfold Flt.mul, SFmul. rewrite xorb_false_r.
  rewrite Pos.mul_comm. cbn [Pos.mul].
  unfold binary_round_aux.
  assert (S1 : shr_fexp Flt.prec Flt.emax
                 (Zpos m~0~0~0~0~0~0~0~0~0~0~0~0~0~0~0~0~0~0~0~0~0~0~0)
                 (e + -23) loc_Exact
               = (Build_shr_record (Zpos m) false false, e)).
  { unfold shr_fexp. cbn [Zdigits2 digits2_pos].
    replace (fexp Flt.prec Flt.emax _ - (e + -23)) with 23.
    - cbn. f_equal. lia.
    - match goal with
      | |- _ = fexp _ _ ?z - _ =>
          replace z with (Zpos (digits2_pos m) + e) by lia
      end.
      rewrite Hc. lia. }
  rewrite S1. cbn [shr_m loc_of_shr_record round_nearest_even].
  assert (S2 : shr_fexp Flt.prec Flt.emax (Zpos m) e loc_Exact
               = (Build_shr_record (Zpos m) false false, e)).
  { unfold shr_fexp. cbn [Zdigits2]. rewrite Hc, Z.sub_diag. reflexivity. }
  rewrite S2. cbn [shr_m].
  replace (e <=? Flt.emax - Flt.prec) with true; [reflexivity|].
  symmetry. apply Z.leb_le. exact He.
Qed.

Lemma Flt_mul_one (a : float) :
  Flt.wf a = true -> Flt.mul a (Flt.of_Z 1) = a.
Proof.
  destruct a as [s|s| |s m e]; intros H.
  - now destruct s.
  - now destruct s.
  - reflexivity.
  - now apply mul_one_finite.
Qed.

Lemma Flt_one_div_one : Flt.div (Flt.of_Z 1) (Flt.of_Z 1) = Flt.of_Z 1.
Proof. vm_compute. reflexivity. Qed.

Lemma Flt_mul_minus_one (a : float) :
  Flt.wf a = true -> Flt.mul a (Flt.of_Z (-1)) = Flt.opp a.
Proof.
  intros H.
  change (Flt.of_Z (-1)) with (SFopp (Flt.of_Z 1)).
  unfold Flt.mul. rewrite mul_opp_r.
  fold (Flt.mul a (Flt.of_Z 1)). now rewrite Flt_mul_one.
Qed.

(** ** Scalar products, sums and differences *)

(** X1.  Scaling from the left, [s * v] (the free function), gives the
    same vector as scaling from the right, [v * s] (the member), for
    [Vector2] and [Vector3] and for every scalar, NaN and infinities
    included. *)
Theorem scalar_mul_commutes :
  (forall (s : float) (v : Vector2.t), Vector2.scalar_mul s v = Vector2.op_mul v s)
  /\ (forall (s : float) (v : Vector3.t),
      Vector3.scalar_mul s v = Vector3.op_mul v s).
Proof.
  split.
  - intros s [a b]. unfold Vector2.scalar_mul, Vector2.op_mul. simpl.
    now rewrite (Flt_mul_comm s a), (Flt_mul_comm s b).
  - intros s [a b c]. unfold Vector3.scalar_mul, Vector3.op_mul. simpl.
    now rewrite (Flt_mul_comm s a), (Flt_mul_comm s b), (Flt_mul_comm s c).
Qed.

Lemma dot2_comm (a b : Vector2.t) : Vector2.op_dot a b = Vector2.op_dot b a.
Proof.
  destruct a as [a0 a1], b as [b0 b1]. unfold Vector2.op_dot. simpl.
  now rewrite (Flt_mul_comm a0 b0), (Flt_mul_comm a1 b1).
Qed.

Lemma dot3_comm (a b : Vector3.t) : Vector3.op_dot a b = Vector3.op_dot b a.
Proof.
  destruct a as [a0 a1 a2], b as [b0 b1 b2]. unfold Vector3.op_dot. simpl.
  now rewrite (Flt_mul_comm a0 b0), (Flt_mul_comm a1 b1), (Flt_mul_comm a2 b2).
Qed.

(** X2.  The dot product is symmetric, [a * b = b * a], as floating-point
    values, for [Vector2] and [Vector3]. *)
Theorem dot_symmetric :
  (forall a b : Vector2.t, Vector2.op_dot a b = Vector2.op_dot b a)
  /\ (forall a b : Vector3.t, Vector3.op_dot a b = Vector3.op_dot b a).
Proof.
  split; [exact dot2_comm | exact dot3_comm].
Qed.

(** X3.  Vector addition is commutative, [a + b = b + a], for [Vector2]
    and [Vector3]. *)
Theorem add_commutes :
  (forall a b : Vector2.t, Vector2.op_add a b = Vector2.op_add b a)
  /\ (forall a b : Vector3.t, Vector3.op_add a b = Vector3.op_add b a).
Proof.
  split.
  - intros [a0 a1] [b0 b1]. unfold Vector2.op_add, Flt.add. simpl.
    now rewrite (add_comm _ _ a0 b0), (add_comm _ _ a1 b1).
  - intros [a0 a1 a2] [b0 b1 b2]. unfold Vector3.op_add, Flt.add. simpl.
    now rewrite (add_comm _ _ a0 b0), (add_comm _ _ a1 b1), (add_comm _ _ a2 b2).
Qed.

(** X4.  Subtracting a vector is adding its negation, [a - b = a + (-b)],
    for [Vector2] and [Vector3]. *)
Theorem sub_is_add_neg :
  (forall a b : Vector2.t,
      Vector2.op_sub a b = Vector2.op_add a (Vector2.op_neg b))
  /\ (forall a b : Vector3.t,
      Vector3.op_sub a b = Vector3.op_add a (Vector3.op_neg b)).
Proof.
  split.
  - intros [a0 a1] [b0 b1].
    unfold Vector2.op_sub, Vector2.op_add, Vector2.op_neg, Flt.sub, Flt.add, Flt.opp.
    simpl. now rewrite !sub_as_add.
  - intros [a0 a1 a2] [b0 b1 b2].
    unfold Vector3.op_sub, Vector3.op_add, Vector3.op_neg, Flt.sub, Flt.add, Flt.opp.
    simpl. now rewrite !sub_as_add.
Qed.

(** X5.  Negating twice gives the vector back, and for vectors of [float]
    values scaling by [-1.0f] is negation. *)
Theorem neg_involutive_and_scale_minus_one :
  (forall v : Vector2.t, Vector2.op_neg (Vector2.op_neg v) = v)
  /\ (forall v : Vector3.t, Vector3.op_neg (Vector3.op_neg v) = v)
  /\ (forall v : Vector2.t, wf2 v = true ->
      Vector2.op_mul v (f32 (-1)) = Vector2.op_neg v)
  /\ (forall v : Vector3.t, wf3 v = true ->
      Vector3.op_mul v (f32 (-1)) = Vector3.op_neg v).
Proof.
  split; [|split; [|split]].
  - intros [a b]. unfold Vector2.op_neg, Flt.opp. simpl.
    now rewrite !opp_involutive.
  - intros [a b c]. unfold Vector3.op_neg, Flt.opp. simpl.
    now rewrite !opp_involutive.
  - intros [a b]. unfold wf2, Vector2.op_mul, Vector2.op_neg, f32. simpl.
    intros H. apply andb_prop in H. destruct H as [Ha Hb].
    now rewrite !Flt_mul_minus_one.
  - intros [a b c]. unfold wf3, Vector3.op_mul, Vector3.op_neg, f32. simpl.
    intros H. apply andb_prop in H. destruct H as [H Hc].
    apply andb_prop in H. destruct H as [Ha Hb].
    now rewrite !Flt_mul_minus_one.
Qed.

Lemma neg_involutive_and_scale_minus_one_witness :
  (wf2 (v2 3 (-4)) = true
   /\ Vector2.op_mul (v2 3 (-4)) (f32 (-1)) = Vector2.op_neg (v2 3 (-4)))
  /\ (wf3 (v3 2 0 5) = true
      /\ Vector3.op_mul (v3 2 0 5) (f32 (-1)) = Vector3.op_neg (v3 2 0 5)).
Proof.
  split; (split; [vm_compute; reflexivity|]).
  - apply (proj1 (proj2 (proj2 neg_involutive_and_scale_minus_one)) (v2 3 (-4))).
    vm_compute. reflexivity.
  - apply (proj2 (proj2 (proj2 neg_involutive_and_scale_minus_one)) (v3 2 0 5)).
    vm_compute. reflexivity.
Defined.

(** X6.  Scaling a vector of [float] values by [1.0f], from either side,
    and dividing it by [1.0f] return the vector itself, for [Vector2] and
    [Vector3]. *)
Theorem scale_by_one :
  (forall v : Vector2.t, wf2 v = true ->
      Vector2.op_mul v (f32 1) = v
      /\ Vector2.scalar_mul (f32 1) v = v
      /\ Vector2.op_div v (f32 1) = v)
  /\ (forall v : Vector3.t, wf3 v = true ->
      Vector3.op_mul v (f32 1) = v
      /\ Vector3.scalar_mul (f32 1) v = v
      /\ Vector3.op_div v (f32 1) = v).
Proof.
  split.
  - intros [a b] H. unfold wf2 in H. simpl in H.
    apply andb_prop in H. destruct H as [Ha Hb].
    assert (E : Vector2.op_mul (Vector2.mk a b) (f32 1) = Vector2.mk a b).
    { unfold Vector2.op_mul, f32. simpl. now rewrite !Flt_mul_one. }
    split; [exact E|split].
    + unfold Vector2.scalar_mul, Vector2.x, Vector2.y, f32.
      cbn [Vector2.x_ Vector2.y_].
      rewrite (Flt_mul_comm _ a), (Flt_mul_comm _ b).
      now rewrite !Flt_mul_one.
    + unfold Vector2.op_div, f32. cbn [Vector2.x_ Vector2.y_].
      rewrite Flt_one_div_one. now rewrite !Flt_mul_one.
  - intros [a b c] H. unfold wf3 in H. simpl in H.
    apply andb_prop in H. destruct H as [H Hc].
    apply andb_prop in H. destruct H as [Ha Hb].
    assert (E : Vector3.op_mul (Vector3.mk a b c) (f32 1) = Vector3.mk a b c).
    { unfold Vector3.op_mul, f32. simpl. now rewrite !Flt_mul_one. }
    split; [exact E|split].
    + unfold Vector3.scalar_mul, f32.
      cbn [Vector3.val_0 Vector3.val_1 Vector3.val_2].
      rewrite (Flt_mul_comm _ a), (Flt_mul_comm _ b), (Flt_mul_comm _ c).
      now rewrite !Flt_mul_one.
    + unfold Vector3.op_div, f32. cbn [Vector3.val_0 Vector3.val_1 Vector3.val_2].
      rewrite Flt_one_div_one. now rewrite !Flt_mul_one.
Qed.

Lemma scale_by_one_witness :
  (wf2 (Vector2.mk tiny (f32 (10 ^ 20))) = true
   /\ Vector2.op_div (Vector2.mk tiny (f32 (10 ^ 20))) (f32 1)
      = Vector2.mk tiny (f32 (10 ^ 20)))
  /\ (wf3 (v3 1 (-2) 3) = true
      /\ Vector3.op_mul (v3 1 (-2) 3) (f32 1) = v3 1 (-2) 3).
Proof.
  split; (split; [vm_compute; reflexivity|]).
  - apply (proj1 scale_by_one (Vector2.mk tiny (f32 (10 ^ 20)))).
    vm_compute. reflexivity.
  - apply (proj2 scale_by_one (v3 1 (-2) 3)). vm_compute. reflexivity.
Defined.

(** ** The epsilon comparisons, continued *)

Lemma within_epsilon_self (a : float) :
  Flt.ltb (Flt.fabs (Flt.sub a a)) FLT_EPSILON = is_finite a.
Proof.
  destruct a as [s|s| |s m e].
  - now destruct s.
  - now destruct s.
  - reflexivity.
  - rewrite Flt_sub_diag; reflexivity.
Qed.

(** X7.  [v == v] holds exactly when every component of [v] is finite: a
    vector with an infinite or NaN component is not equal to itself.  For
    [Vector2] and [Vector3]. *)
Theorem eq_reflexive_iff_finite :
  (forall v : Vector2.t, Vector2.op_eq v v = finite2 v)
  /\ (forall v : Vector3.t, Vector3.op_eq v v = finite3 v).
Proof.
  split.
  - intros [a b]. unfold Vector2.op_eq, finite2. simpl.
    now rewrite !within_epsilon_self.
  - intros [a b c]. unfold Vector3.op_eq, finite3. simpl.
    now rewrite !within_epsilon_self.
Qed.

Lemma Flt_abs_sub_sym (a b : float) :
  Flt.fabs (Flt.sub a b) = Flt.fabs (Flt.sub b a).
Proof. apply abs_sub_sym. Qed.

(** X8.  [operator==] and [operator!=] are symmetric in their two
    operands, for [Vector2] and [Vector3]. *)
Theorem eq_ne_symmetric :
  (forall a b : Vector2.t,
      Vector2.op_eq a b = Vector2.op_eq b a
      /\ Vector2.op_ne a b = Vector2.op_ne b a)
  /\ (forall a b : Vector3.t,
      Vector3.op_eq a b = Vector3.op_eq b a
      /\ Vector3.op_ne a b = Vector3.op_ne b a).
Proof.
  split.
  - intros [a0 a1] [b0 b1]. unfold Vector2.op_eq, Vector2.op_ne. simpl.
    now rewrite (Flt_abs_sub_sym a0 b0), (Flt_abs_sub_sym a1 b1).
  - intros [a0 a1 a2] [b0 b1 b2]. unfold Vector3.op_eq, Vector3.op_ne. simpl.
    now rewrite (Flt_abs_sub_sym a0 b0), (Flt_abs_sub_sym a1 b1),
      (Flt_abs_sub_sym a2 b2).
Qed.

(** ** [LeftNormalVector] and [det] *)

Lemma Flt_mul_opp_r (a b : float) : Flt.mul a (Flt.opp b) = Flt.opp (Flt.mul a b).
Proof. apply mul_opp_r. Qed.

Lemma Flt_sub_opp (a b : float) : Flt.sub a (Flt.opp b) = Flt.add a b.
Proof.
  unfold Flt.sub, Flt.add, Flt.opp.
  now rewrite sub_as_add, opp_involutive.
Qed.

(** X9.  Turning left twice negates a vector and turning left four times
    gives it back; the determinant of [v] with its left normal is the
    squared length [GetLengthSquared(v)]. *)
Theorem left_normal_rotations (v : Vector2.t) :
  Vector2.LeftNormalVector (Vector2.LeftNormalVector v) = Vector2.op_neg v
  /\ Vector2.LeftNormalVector
       (Vector2.LeftNormalVector
          (Vector2.LeftNormalVector (Vector2.LeftNormalVector v))) = v
  /\ Vector2.det v (Vector2.LeftNormalVector v) = Vector2.GetLengthSquared v.
Proof.
  destruct v as [a b].
  unfold Vector2.LeftNormalVector, Vector2.op_neg, Vector2.det,
    Vector2.GetLengthSquared.
  simpl. split; [reflexivity|split].
  - unfold Flt.opp. now rewrite !opp_involutive.
  - now rewrite Flt_mul_opp_r, Flt_sub_opp.
Qed.

(** X10.  A vector whose component product [x * y] is finite is
    perpendicular to its left normal: their dot product is [+0]. *)
Theorem left_normal_perpendicular (v : Vector2.t) :
  is_finite (Flt.mul (Vector2.x v) (Vector2.y v)) = true ->
  Vector2.op_dot v (Vector2.LeftNormalVector v) = Flt.pos_zero.
Proof.
  destruct v as [a b]. unfold Vector2.op_dot, Vector2.LeftNormalVector. simpl.
  intros H.
  rewrite Flt_mul_opp_r, (Flt_mul_comm b a).
  unfold Flt.add. rewrite add_comm. now apply Flt_add_opp_diag.
Qed.

Lemma left_normal_perpendicular_witness :
  is_finite (Flt.mul (Vector2.x (v2 3 (-4))) (Vector2.y (v2 3 (-4)))) = true
  /\ Vector2.op_dot (v2 3 (-4)) (Vector2.LeftNormalVector (v2 3 (-4)))
     = Flt.pos_zero.
Proof.
  split; [vm_compute; reflexivity|].
  apply (left_normal_perpendicular (v2 3 (-4))). vm_compute. reflexivity.
Defined.

(** X11.  Swapping the arguments of [det] keeps the magnitude of the
    result, whatever the arguments; when [det(a, b)] is finite, it is the
    same number as [-det(b, a)]. *)
Theorem det_antisymmetric (a b : Vector2.t) :
  Flt.fabs (Vector2.det a b) = Flt.fabs (Vector2.det b a)
  /\ (is_finite (Vector2.det a b) = true ->
      same_number (Vector2.det a b) (Flt.opp (Vector2.det b a))).
Proof.
  destruct a as [a0 a1], b as [b0 b1]. unfold Vector2.det. simpl.
  rewrite (Flt_mul_comm b0 a1), (Flt_mul_comm b1 a0).
  split.
  - apply Flt_abs_sub_sym.
  - intros H. now apply Flt_sub_antisym.
Qed.

Lemma det_antisymmetric_witness :
  is_finite (Vector2.det (v2 1 2) (v2 3 5)) = true
  /\ same_number (Vector2.det (v2 1 2) (v2 3 5))
                 (Flt.opp (Vector2.det (v2 3 5) (v2 1 2))).
Proof.
  split; [vm_compute; reflexivity|].
  apply (proj2 (det_antisymmetric (v2 1 2) (v2 3 5))). vm_compute. reflexivity.
Defined.

(** ** Lengths *)

(** X12.  The squared length is never negative: [v * v], [absSq(v)],
    [GetLengthSquared()] and [abs(v)] do not have the sign bit set and
    are never below zero, for [Vector2] and [Vector3]. *)
Theorem squared_length_not_negative :
  (forall v : Vector2.t,
      is_negative (Vector2.op_dot v v) = false
      /\ is_negative (Vector2.GetLengthSquared v) = false
      /\ is_negative (Vector2.absSq v) = false
      /\ is_negative (Vector2.abs v) = false
      /\ Flt.ltb (Vector2.abs v) Flt.pos_zero = false)
  /\ (forall v : Vector3.t,
      is_negative (Vector3.op_dot v v) = false
      /\ is_negative (Vector3.absSq v) = false
      /\ is_negative (Vector3.abs v) = false
      /\ Flt.ltb (Vector3.abs v) Flt.pos_zero = false).
Proof.
  split.
  - intros [a b].
    assert (D : is_negative (Vector2.op_dot (Vector2.mk a b) (Vector2.mk a b)) = false).
    { unfold Vector2.op_dot, Flt.add, Flt.mul. simpl.
      apply add_not_negative; apply mul_self_not_negative. }
    assert (A : is_negative (Vector2.abs (Vector2.mk a b)) = false).
    { unfold Vector2.abs, Flt.sqrt. now apply sqrt_not_negative. }
    repeat split; try exact D; try exact A.
    now apply not_negative_not_below_zero.
  - intros [a b c].
    assert (D : is_negative (Vector3.op_dot (Vector3.mk a b c) (Vector3.mk a b c))
                = false).
    { unfold Vector3.op_dot, Flt.add, Flt.mul. simpl.
      repeat apply add_not_negative; apply mul_self_not_negative. }
    assert (A : is_negative (Vector3.abs (Vector3.mk a b c)) = false).
    { unfold Vector3.abs, Flt.sqrt. now apply sqrt_not_negative. }
    repeat split; try exact D; try exact A.
    now apply not_negative_not_below_zero.
Qed.

(** ** [normalize] and [getCos] on vectors of length zero *)

Lemma mul_reciprocal_of_zero (a z : float) :
  is_zero z = true ->
  is_finite (Flt.mul a (Flt.div (Flt.of_Z 1) z)) = false.
Proof.
  destruct z as [s| | |]; try discriminate. intros _.
  change (Flt.div (Flt.of_Z 1) (S754_zero s)) with (S754_infinity s).
  destruct a as [sa|sa| |sa ma ea]; reflexivity.
Qed.

(** X13.  The free function [normalize] has no guard: when [abs(v)] is a
    zero (the zero vector, or a vector so short that its squared length
    underflows), every component of [normalize(v)] is infinite or NaN.  For
    [Vector2] and [Vector3]. *)
Theorem normalize_of_zero_length :
  (forall v : Vector2.t, is_zero (Vector2.abs v) = true ->
      is_finite (Vector2.x (Vector2.normalize v)) = false
      /\ is_finite (Vector2.y (Vector2.normalize v)) = false)
  /\ (forall v : Vector3.t, is_zero (Vector3.abs v) = true ->
      is_finite (Vector3.x (Vector3.normalize v)) = false
      /\ is_finite (Vector3.y (Vector3.normalize v)) = false
      /\ is_finite (Vector3.z (Vector3.normalize v)) = false).
Proof.
  split.
  - intros v H. unfold Vector2.normalize, Vector2.op_div.
    cbn [Vector2.x Vector2.y Vector2.x_ Vector2.y_].
    split; now apply mul_reciprocal_of_zero.
  - intros v H. unfold Vector3.normalize, Vector3.op_div.
    cbn [Vector3.x Vector3.y Vector3.z Vector3.val_0 Vector3.val_1 Vector3.val_2].
    repeat split; now apply mul_reciprocal_of_zero.
Qed.

Lemma normalize_of_zero_length_witness :
  (is_zero (Vector2.abs (Vector2.mk tiny (f32 0))) = true
   /\ is_finite (Vector2.x (Vector2.normalize (Vector2.mk tiny (f32 0)))) = false)
  /\ (is_zero (Vector3.abs (v3 0 0 0)) = true
      /\ is_finite (Vector3.x (Vector3.normalize (v3 0 0 0))) = false).
Proof.
  split; (split; [vm_compute; reflexivity|]).
  - apply (proj1 normalize_of_zero_length (Vector2.mk tiny (f32 0))).
    vm_compute. reflexivity.
  - apply (proj2 normalize_of_zero_length (v3 0 0 0)). vm_compute. reflexivity.
Defined.

Lemma getLength_of_zero_vector (v : Vector2.t) :
  zero_vector2 v = true -> Vector2.getLength v = Flt.pos_zero.
Proof.
  destruct v as [[sa| | |] [sb| | |]]; try discriminate. intros _.
  destruct sa, sb; vm_compute; reflexivity.
Qed.

Lemma dot_of_zero_vector (v u : Vector2.t) :
  zero_vector2 v = true -> nan_or_zero (Vector2.op_dot v u) = true.
Proof.
  destruct v as [[sa| | |] [sb| | |]]; try discriminate. intros _.
  destruct u as [[s0|s0| |s0 m0 e0] [s1|s1| |s1 m1 e1]];
    destruct sa, sb; try reflexivity; destruct s0; try reflexivity;
    destruct s1; reflexivity.
Qed.

Lemma div_nan_or_zero (a b : float) :
  nan_or_zero a = true -> nan_or_zero b = true -> Flt.div a b = Flt.nan.
Proof.
  destruct a as [sa|sa| |sa ma ea]; try discriminate;
    destruct b as [sb|sb| |sb mb eb]; try discriminate; reflexivity.
Qed.

Lemma mul_zero_nan_or_zero (a b : float) :
  is_zero a = true \/ is_zero b = true -> nan_or_zero (Flt.mul a b) = true.
Proof.
  intros [H|H].
  - destruct a as [sa| | |]; try discriminate.
    destruct b as [sb|sb| |sb mb eb]; reflexivity.
  - destruct b as [sb| | |]; try discriminate.
    destruct a as [sa|sa| |sa ma ea]; reflexivity.
Qed.

(** X14.  [getCos] has no guard either: when one of the two vectors is the
    zero vector the result is NaN, whatever the other vector is. *)
Theorem getCos_of_zero_vector (a b : Vector2.t) :
  zero_vector2 a = true \/ zero_vector2 b = true ->
  Vector2.getCos a b = Flt.nan.
Proof.
  intros H. unfold Vector2.getCos. apply div_nan_or_zero.
  - destruct H as [H|H].
    + now apply dot_of_zero_vector.
    + rewrite dot2_comm. now apply dot_of_zero_vector.
  - apply mul_zero_nan_or_zero.
    destruct H as [H|H]; [left|right]; now rewrite getLength_of_zero_vector.
Qed.

Lemma getCos_of_zero_vector_witness :
  (zero_vector2 (v2 0 0) = true \/ zero_vector2 (v2 3 4) = true)
  /\ Vector2.getCos (v2 0 0) (v2 3 4) = Flt.nan.
Proof.
  split; [left; vm_compute; reflexivity|].
  apply (getCos_of_zero_vector (v2 0 0) (v2 3 4)). left. vm_compute. reflexivity.
Defined.

(** ** Assignment *)

(** X15.  [operator=] returns a reference to the receiver and leaves in it
    the value of the right operand; no other object changes, and
    assigning an object to itself changes nothing.  For [Vector2] and
    [Vector3]. *)
Theorem assign_copies :
  (forall this right h,
      in_place_result (Vector2.op_assign this right h) this h (h right))
  /\ (forall this h, Vector2.op_assign this this h = (this, h))
  /\ (forall this right h,
      in_place_result (Vector3.op_assign this right h) this h (h right))
  /\ (forall this h, Vector3.op_assign this this h = (this, h)).
Proof.
  split; [|split; [|split]].
  - intros this right h. unfold Vector2.op_assign, in_place_result.
    destruct (Nat.eqb_spec this right) as [->|Hne]; simpl.
    + repeat split.
    + split; [reflexivity|split].
      * unfold Vector2.set_x, Vector2.set_y. rewrite ?Nat.eqb_refl. simpl.
        apply not_eq_sym, Nat.eqb_neq in Hne. rewrite Hne.
        now destruct (h right).
      * intros a Ha. unfold Vector2.set_x, Vector2.set_y.
        apply Nat.eqb_neq in Ha. now rewrite Ha.
  - intros this h. unfold Vector2.op_assign. now rewrite Nat.eqb_refl.
  - intros this right h. unfold Vector3.op_assign, in_place_result.
    destruct (Nat.eqb_spec this right) as [->|Hne]; simpl.
    + repeat split.
    + split; [reflexivity|split].
      * unfold Vector3.set_0, Vector3.set_1, Vector3.set_2.
        rewrite ?Nat.eqb_refl. simpl.
        apply not_eq_sym, Nat.eqb_neq in Hne. rewrite ?Hne. simpl.
        rewrite ?Hne. now destruct (h right).
      * intros a Ha. unfold Vector3.set_0, Vector3.set_1, Vector3.set_2.
        apply Nat.eqb_neq in Ha. now rewrite Ha.
  - intros this h. unfold Vector3.op_assign. now rewrite Nat.eqb_refl.
Qed.

(** X16.  Subtracting an object from itself in place, [v -= v], leaves the
    zero vector in it when its components are finite.  For [Vector2] and
    [Vector3]. *)
Theorem sub_assign_self :
  (forall this h, finite2 (h this) = true ->
      snd (Vector2.op_sub_assign this this h) this = Vector2.zero)
  /\ (forall this h, finite3 (h this) = true ->
      snd (Vector3.op_sub_assign this this h) this = Vector3.zero).
Proof.
  split.
  - intros this h. unfold finite2, Vector2.op_sub_assign, Vector2.set_x,
      Vector2.set_y.
    simpl. rewrite ?Nat.eqb_refl. simpl.
    destruct (h this) as [a b]. simpl. intros H.
    apply andb_prop in H. destruct H as [Ha Hb].
    unfold Vector2.zero. now rewrite !Flt_sub_diag.
  - intros this h. unfold finite3, Vector3.op_sub_assign, Vector3.set_0,
      Vector3.set_1, Vector3.set_2.
    simpl. rewrite ?Nat.eqb_refl. simpl.
    destruct (h this) as [a b c]. simpl. intros H.
    apply andb_prop in H. destruct H as [H Hc].
    apply andb_prop in H. destruct H as [Ha Hb].
    unfold Vector3.zero. now rewrite !Flt_sub_diag.
Qed.

Lemma sub_assign_self_witness :
  (finite2 (v2 3 4) = true
   /\ snd (Vector2.op_sub_assign 0%nat 0%nat (fun _ => v2 3 4)) 0%nat = Vector2.zero)
  /\ (finite3 (v3 1 2 3) = true
      /\ snd (Vector3.op_sub_assign 0%nat 0%nat (fun _ => v3 1 2 3)) 0%nat
         = Vector3.zero).
Proof.
  split; (split; [vm_compute; reflexivity|]).
  - apply (proj1 sub_assign_self 0%nat (fun _ => v2 3 4)). vm_compute. reflexivity.
  - apply (proj2 sub_assign_self 0%nat (fun _ => v3 1 2 3)). vm_compute. reflexivity.
Defined.

(** ** [angleTo], continued *)

(** X17.  The angle from a vector to itself is [+0] whenever its polar
    angle is finite, whatever the library's [atan2] returns. *)
Theorem angleTo_self (atan2 : float -> float -> double) (v : Vector2.t) :
  is_finite (Vector2.polarAngle atan2 v) = true ->
  Vector2.angleTo atan2 v v = S754_zero false.
Proof.
  intros H. unfold Vector2.angleTo, Dbl.sub.
  now rewrite (sub_diag _ _ _ H).
Qed.

Lemma angleTo_self_witness :
  is_finite (Vector2.polarAngle axis_atan2 (v2 0 (-1))) = true
  /\ Vector2.angleTo axis_atan2 (v2 0 (-1)) (v2 0 (-1)) = S754_zero false.
Proof.
  split; [vm_compute; reflexivity|].
  apply (angleTo_self axis_atan2 (v2 0 (-1))). vm_compute. reflexivity.
Defined.

(** ** NaN components and self comparison *)

Lemma beyond_epsilon_self (a : float) :
  Flt.ltb FLT_EPSILON (Flt.fabs (Flt.sub a a)) = false.
Proof.
  destruct a as [s|s| |s m e].
  - now destruct s.
  - now destruct s.
  - reflexivity.
  - rewrite Flt_sub_diag; reflexivity.
Qed.

(** X18.  [v != v] is false for every vector, also one with infinite or
    NaN components.  For [Vector2] and [Vector3]. *)
Theorem ne_irreflexive :
  (forall v : Vector2.t, Vector2.op_ne v v = false)
  /\ (forall v : Vector3.t, Vector3.op_ne v v = false).
Proof.
  split.
  - intros [a b]. unfold Vector2.op_ne. simpl.
    now rewrite !beyond_epsilon_self.
  - intros [a b c]. unfold Vector3.op_ne. simpl.
    now rewrite !beyond_epsilon_self.
Qed.

Lemma nan_fails_both_tests (a b : float) :
  is_nan a = true ->
  Flt.ltb (Flt.fabs (Flt.sub a b)) FLT_EPSILON = false
  /\ Flt.ltb FLT_EPSILON (Flt.fabs (Flt.sub a b)) = false.
Proof.
  destruct a; try discriminate. intros _.
  destruct b; split; reflexivity.
Qed.

(** X19.  A vector with a NaN component is neither [==] nor [!=] to any
    vector.  For [Vector2] and [Vector3]. *)
Theorem nan_component_neither_eq_nor_ne :
  (forall v u : Vector2.t,
      is_nan (Vector2.x v) || is_nan (Vector2.y v) = true ->
      Vector2.op_eq v u = false /\ Vector2.op_ne v u = false)
  /\ (forall v u : Vector3.t,
      is_nan (Vector3.x v) || is_nan (Vector3.y v) || is_nan (Vector3.z v) = true ->
      Vector3.op_eq v u = false /\ Vector3.op_ne v u = false).
Proof.
  split.
  - intros [a b] [c d]. unfold Vector2.op_eq, Vector2.op_ne. simpl. intros H.
    apply orb_prop in H. destruct H as [H|H].
    + destruct (nan_fails_both_tests a c H) as [E N]. now rewrite E, N.
    + destruct (nan_fails_both_tests b d H) as [E N]. rewrite E, N.
      now rewrite !andb_false_r.
  - intros [a b c] [d e f]. unfold Vector3.op_eq, Vector3.op_ne. simpl. intros H.
    apply orb_prop in H. destruct H as [H|H]; [apply orb_prop in H; destruct H as [H|H]|].
    + destruct (nan_fails_both_tests a d H) as [E N]. now rewrite E, N.
    + destruct (nan_fails_both_tests b e H) as [E N]. rewrite E, N.
      now rewrite !andb_false_r.
    + destruct (nan_fails_both_tests c f H) as [E N]. rewrite E, N.
      now rewrite !andb_false_r.
Qed.

Lemma nan_component_neither_eq_nor_ne_witness :
  (is_nan (Vector2.x (Vector2.mk Flt.nan (f32 1)))
   || is_nan (Vector2.y (Vector2.mk Flt.nan (f32 1))) = true
   /\ Vector2.op_ne (Vector2.mk Flt.nan (f32 1)) (v2 5 7) = false)
  /\ (is_nan (Vector3.x (Vector3.mk (f32 1) (f32 2) Flt.nan))
      || is_nan (Vector3.y (Vector3.mk (f32 1) (f32 2) Flt.nan))
      || is_nan (Vector3.z (Vector3.mk (f32 1) (f32 2) Flt.nan)) = true
      /\ Vector3.op_eq (Vector3.mk (f32 1) (f32 2) Flt.nan)
                       (Vector3.mk (f32 1) (f32 2) Flt.nan) = false).
Proof.
  split; (split; [vm_compute; reflexivity|]).
  - apply (proj1 nan_component_neither_eq_nor_ne (Vector2.mk Flt.nan (f32 1)) (v2 5 7)).
    vm_compute. reflexivity.
  - apply (proj2 nan_component_neither_eq_nor_ne
             (Vector3.mk (f32 1) (f32 2) Flt.nan) (Vector3.mk (f32 1) (f32 2) Flt.nan)).
    vm_compute. reflexivity.
Defined.

(** ** [cross] and the lengths in [double] *)

(** X20.  Swapping the arguments of [cross] keeps the magnitude of every
    component, whatever the arguments. *)
Theorem cross_swap_magnitude (a b : Vector3.t) :
  Flt.fabs (Vector3.x (Vector3.cross a b)) = Flt.fabs (Vector3.x (Vector3.cross b a))
  /\ Flt.fabs (Vector3.y (Vector3.cross a b)) = Flt.fabs (Vector3.y (Vector3.cross b a))
  /\ Flt.fabs (Vector3.z (Vector3.cross a b)) = Flt.fabs (Vector3.z (Vector3.cross b a)).
Proof.
  destruct a as [a0 a1 a2], b as [b0 b1 b2]. unfold Vector3.cross. simpl.
  rewrite (Flt_mul_comm b1 a2), (Flt_mul_comm b2 a1), (Flt_mul_comm b2 a0),
    (Flt_mul_comm b0 a2), (Flt_mul_comm b0 a1), (Flt_mul_comm b1 a0).
  repeat split; apply Flt_abs_sub_sym.
Qed.

Lemma convert_not_negative (prec emax : Z) (a : spec_float) :
  is_negative a = false -> is_negative (convert prec emax a) = false.
Proof.
  destruct a as [s|s| |s m e]; simpl; intros Ha; subst; try reflexivity.
  simpl. unfold binary_round.
  destruct (shl_align _ _ _) as [mz ez]. apply round_aux_not_negative.
Qed.

Lemma pow_2_not_negative (a : float) : is_negative (pow_2 a) = false.
Proof. unfold pow_2, Dbl.mul. apply mul_self_not_negative. Qed.

(** X21.  The lengths computed through [pow] and [sqrt] are never
    negative: the local [length] of [normalized()], [getLength] of a
    [Vector2] and [getLength()] of a [Vector3]. *)
Theorem getLength_not_negative :
  (forall v : Vector2.t,
      is_negative (Vector2.length v) = false
      /\ is_negative (Vector2.getLength v) = false)
  /\ (forall v : Vector3.t, is_negative (Vector3.getLength v) = false).
Proof.
  split.
  - intros v.
    assert (L : is_negative (Vector2.length v) = false).
    { unfold Vector2.length, Dbl.sqrt, Dbl.add.
      apply sqrt_not_negative, add_not_negative; apply pow_2_not_negative. }
    split; [exact L|].
    unfold Vector2.getLength, Dbl.to_float. now apply convert_not_negative.
  - intros v. unfold Vector3.getLength, Dbl.to_float, Dbl.sqrt, Dbl.add.
    apply convert_not_negative, sqrt_not_negative.
    repeat apply add_not_negative; apply pow_2_not_negative.
Qed.
